(** * gcp-monitoring-resource-weirdness: the diagnostic run of [main.go]

    A shallow embedding of [src/main.go].  The program talks to three
    things it does not own: the Cloud Monitoring backend (through the
    generated gRPC client), the [prototext] marshaller and the operating
    system (clock, [gcloud] subprocess, standard output, process exit).
    Their answers are collected in a record [World]; every call the program
    makes to one of them is appended to a trace of [Event]s, so that
    statements such as "before any network call" are statements about the
    trace.

    What is left out: [ctx] and the client handle, which only carry the
    calls to the backend; [signal.NotifyContext] and [defer cancel()], whose
    one visible effect, a cancelled call, is an error answer of the world;
    and [flag.Parse()], whose result is the record [Flags] the run starts
    from.  The clock, the subprocess and each entry point of the backend are
    called at most once in a run and the marshaller is a function of its
    message, so the answers of the world are functions of the request
    alone. *)

From Stdlib Require Import ZArith String Ascii List Floats.
From stdpp Require Import base strings gmap list pretty.

Open Scope string_scope.

(** ** Go errors *)

(** [fmt.Errorf] without [%w] (and every error made outside this program)
    is an [errorString]; [fmt.Errorf] with [%w] builds a [wrapError] that
    keeps the formatted message and the wrapped error. *)
Inductive Err : Type :=
| errorString (s : string)
| wrapError (msg : string) (err : Err).

(** The Go interface type [error]: [None] is [nil]. *)
Abbreviation error := (option Err).

Definition Error (e : Err) : string :=
  match e with
  | errorString s => s
  | wrapError msg _ => msg
  end.

(** [fmt.Errorf(prefix + "%w", err)]. *)
Definition Errorf_w (prefix : string) (err : Err) : Err :=
  wrapError (prefix ++ Error err) err.

Definition Unwrap (e : Err) : error :=
  match e with
  | errorString _ => None
  | wrapError _ err => Some err
  end.

(** ** Protobuf messages used by the program *)

Module timestamppb.
Record Timestamp := { Seconds : Z; Nanos : Z }.
End timestamppb.
Import timestamppb.

Module label.
Inductive LabelDescriptor_ValueType :=
| LabelDescriptor_STRING | LabelDescriptor_BOOL | LabelDescriptor_INT64.

Record LabelDescriptor := {
  ld_Key : string;
  ld_ValueType : LabelDescriptor_ValueType;
  ld_Description : string
}.
End label.
Import label.

Module metricpb.
Inductive MetricDescriptor_MetricKind :=
| MetricDescriptor_METRIC_KIND_UNSPECIFIED
| MetricDescriptor_GAUGE
| MetricDescriptor_DELTA
| MetricDescriptor_CUMULATIVE.

Inductive MetricDescriptor_ValueType :=
| MetricDescriptor_VALUE_TYPE_UNSPECIFIED
| MetricDescriptor_BOOL
| MetricDescriptor_INT64
| MetricDescriptor_DOUBLE
| MetricDescriptor_STRING
| MetricDescriptor_DISTRIBUTION
| MetricDescriptor_MONEY.

(** Durations in nanoseconds. *)
Record MetricDescriptorMetadata := {
  mdm_SamplePeriod : Z;
  mdm_IngestDelay : Z
}.

Record MetricDescriptor := {
  md_Name : string;
  md_Type : string;
  md_Labels : list LabelDescriptor;
  md_MetricKind : MetricDescriptor_MetricKind;
  md_ValueType : MetricDescriptor_ValueType;
  md_Unit : string;
  md_Description : string;
  md_DisplayName : string;
  md_Metadata : option MetricDescriptorMetadata;
  md_MonitoredResourceTypes : list string
}.

Record Metric := {
  m_Type : string;
  m_Labels : gmap string string
}.
End metricpb.
Import metricpb.

Module monitoredres.
Record MonitoredResource := {
  mr_Type : string;
  mr_Labels : gmap string string
}.
End monitoredres.
Import monitoredres.

Module distribution.
Record Distribution_Range := { r_Min : float; r_Max : float }.

Record Distribution_BucketOptions_Explicit := { Bounds : list float }.

(** The [Options] oneof of [Distribution.BucketOptions]. *)
Inductive isDistribution_BucketOptions_Options :=
| Distribution_BucketOptions_LinearBuckets
    (num_finite_buckets : Z) (width offset : float)
| Distribution_BucketOptions_ExponentialBuckets
    (num_finite_buckets : Z) (growth_factor scale : float)
| Distribution_BucketOptions_ExplicitBuckets
    (ExplicitBuckets : option Distribution_BucketOptions_Explicit).

Record Distribution_BucketOptions := {
  Options : option isDistribution_BucketOptions_Options
}.

Record Distribution := {
  Count : Z;
  Mean : float;
  SumOfSquaredDeviation : float;
  Range : option Distribution_Range;
  BucketOptions : option Distribution_BucketOptions;
  BucketCounts : list Z
}.
End distribution.
Import distribution.

Module monitoringpb.
Record TimeInterval := {
  EndTime : option Timestamp;
  StartTime : option Timestamp
}.

(** The [Value] oneof of [TypedValue]. *)
Inductive isTypedValue_Value :=
| TypedValue_BoolValue (b : bool)
| TypedValue_Int64Value (i : Z)
| TypedValue_DoubleValue (d : float)
| TypedValue_StringValue (s : string)
| TypedValue_DistributionValue (DistributionValue : option Distribution).

Record TypedValue := { Value : option isTypedValue_Value }.

Record Point := {
  p_Interval : option TimeInterval;
  p_Value : option TypedValue
}.

Record TimeSeries := {
  ts_Metric : option Metric;
  ts_Resource : option MonitoredResource;
  ts_MetricKind : MetricDescriptor_MetricKind;
  ts_ValueType : MetricDescriptor_ValueType;
  ts_Points : list (option Point);
  ts_Unit : string
}.

Record CreateMetricDescriptorRequest := {
  cmd_Name : string;
  cmd_MetricDescriptor : option MetricDescriptor
}.

Record GetMetricDescriptorRequest := { gmd_Name : string }.

Record CreateTimeSeriesRequest := {
  cts_Name : string;
  cts_TimeSeries : list (option TimeSeries)
}.
End monitoringpb.
Import monitoringpb.

(** A [proto.Message] handed to the marshaller: an interface value holding
    a pointer, which may be nil, to one of the two message types the
    program prints. *)
Inductive Message :=
| MsgMetricDescriptor (desc : option MetricDescriptor)
| MsgTimeSeries (series : option TimeSeries).

(** ** The outside world and the trace of calls *)

Record World := {
  (** [timestamppb.Now()] *)
  w_Now : Timestamp;
  (** [prototext.MarshalOptions{Indent: "  "}.Marshal] *)
  w_Marshal : Message -> string * error;
  (** [monitoring.NewMetricClient]: only its error matters, the client is
      the handle through which the three RPCs below are made. *)
  w_NewMetricClient : error;
  w_CreateMetricDescriptor :
    CreateMetricDescriptorRequest -> option MetricDescriptor * error;
  w_CreateTimeSeries : CreateTimeSeriesRequest -> error;
  w_GetMetricDescriptor :
    GetMetricDescriptorRequest -> option MetricDescriptor * error;
  (** [cmd.Run()] on the given argument vector *)
  w_CmdRun : list string -> error
}.

Inductive Event :=
| EvNow
| EvMarshal (m : Message)
| EvNewMetricClient
| EvCreateMetricDescriptor (req : CreateMetricDescriptorRequest)
| EvCreateTimeSeries (req : CreateTimeSeriesRequest)
| EvGetMetricDescriptor (req : GetMetricDescriptorRequest)
| EvPrintf (out : string)
| EvSleep (d : Z)
| EvCmdRun (argv : list string)
| EvSlogError (msg key : string) (err : Err).

Definition Trace := list Event.

(** Calls that reach the monitoring backend: opening the client and the
    three RPCs. *)
Definition is_network (ev : Event) : bool :=
  match ev with
  | EvNewMetricClient
  | EvCreateMetricDescriptor _
  | EvCreateTimeSeries _
  | EvGetMetricDescriptor _ => true
  | _ => false
  end.

(** ** The monad of the run: a trace writer with panics and [os.Exit] *)

Inductive Outcome (A : Type) :=
| Return (a : A)
| Panic (v : string)
| Exited (code : Z).
Arguments Return {A} a.
Arguments Panic {A} v.
Arguments Exited {A} code.

Definition M (A : Type) : Type := Trace * Outcome A.

Definition ret {A} (a : A) : M A := ([], Return a).

Definition bind {A B} (m : M A) (k : A -> M B) : M B :=
  match m with
  | (t1, Return a) => let '(t2, o) := k a in ((t1 ++ t2)%list, o)
  | (t1, Panic v) => (t1, Panic v)
  | (t1, Exited c) => (t1, Exited c)
  end.

Definition emit (ev : Event) : M unit := ([ev], Return tt).
Definition panic {A} (v : string) : M A := ([], Panic v).
Definition os_Exit {A} (code : Z) : M A := ([], Exited code).

Declare Scope run_scope.
Delimit Scope run_scope with run.
Notation "'let*' x ':=' c 'in' k" := (bind c (fun x => k))
  (at level 10, x pattern, c at level 100, k at level 200) : run_scope.
Notation "c ;; k" := (bind c (fun _ => k))
  (at level 100, right associativity) : run_scope.

(** The status the operating system sees: 0 when [main] returns, the
    argument of [os.Exit], and 2 when the Go runtime dies of a panic. *)
Definition exit_status {A} (o : Outcome A) : Z :=
  match o with
  | Return _ => 0%Z
  | Panic _ => 2%Z
  | Exited c => c
  end.

(** ** Constants of [main.go] *)

Definition metricType : string := "custom.googleapis.com/test/histogram".

(** [type Color uint8], [iota + 30]. *)
Definition Color := Z.
Definition Black : Color := (0 + 30)%Z.
Definition Red : Color := (1 + 30)%Z.
Definition Green : Color := (2 + 30)%Z.
Definition Yellow : Color := (3 + 30)%Z.
Definition Blue : Color := (4 + 30)%Z.
Definition Magenta : Color := (5 + 30)%Z.
Definition Cyan : Color := (6 + 30)%Z.
Definition White : Color := (7 + 30)%Z.

Definition ESC : string := String "027"%char EmptyString.
Definition LF : string := String "010"%char EmptyString.
Definition DQ : string := String "034"%char EmptyString.

(** [fmt.Sprintf("\x1b[%dm%s\x1b[0m", uint8(c), s)] *)
Definition Color_Add (c : Color) (s : string) : string :=
  ESC ++ "[" ++ pretty (c `mod` 256)%Z ++ "m" ++ s ++ ESC ++ "[0m".

Definition Second : Z := 1000000000%Z.

(** The parsed command line: the two package-level flag variables after
    [flag.Parse()]. *)
Record Flags := {
  projectID : string;
  monitoredResource : string
}.

(** The values of the flags when the command line sets neither. *)
Definition flag_defaults : Flags :=
  {| projectID := ""; monitoredResource := "generic_task" |}.

(** ** The program *)

Section Run.
Variable w : World.
Variable flags : Flags.

Local Open Scope run_scope.

(** *** Calls to the world, each recorded in the trace *)

Definition timestamppb_Now : M (option Timestamp) :=
  emit EvNow ;; ret (Some (w_Now w)).

Definition prototext_Marshal (m : Message) : M (string * error) :=
  emit (EvMarshal m) ;; ret (w_Marshal w m).

Definition monitoring_NewMetricClient : M error :=
  emit EvNewMetricClient ;; ret (w_NewMetricClient w).

Definition client_CreateMetricDescriptor (req : CreateMetricDescriptorRequest)
  : M (option MetricDescriptor * error) :=
  emit (EvCreateMetricDescriptor req) ;; ret (w_CreateMetricDescriptor w req).

Definition client_CreateTimeSeries (req : CreateTimeSeriesRequest) : M error :=
  emit (EvCreateTimeSeries req) ;; ret (w_CreateTimeSeries w req).

Definition client_GetMetricDescriptor (req : GetMetricDescriptorRequest)
  : M (option MetricDescriptor * error) :=
  emit (EvGetMetricDescriptor req) ;; ret (w_GetMetricDescriptor w req).

Definition fmt_Printf (out : string) : M unit := emit (EvPrintf out).
Definition time_Sleep (d : Z) : M unit := emit (EvSleep d).
Definition cmd_Run (argv : list string) : M error :=
  emit (EvCmdRun argv) ;; ret (w_CmdRun w argv).
Definition slog_Error (msg key : string) (err : Err) : M unit :=
  emit (EvSlogError msg key err).

(** *** [mustMarshalProtoText] *)
Definition mustMarshalProtoText (desc : Message) : M string :=
  let* (descTxt, err) := prototext_Marshal desc in
  match err with
  | Some e => panic ("marshal metric descriptor: " ++ Error e)
  | None => ret descTxt
  end.

(** *** [newHistogramPoint] *)
Definition newHistogramPoint : M (option Point) :=
  let* now := timestamppb_Now in
  ret (Some {|
    p_Interval := Some {| EndTime := now; StartTime := now |};
    p_Value := Some {| Value := Some (TypedValue_DistributionValue (Some {|
      Count := 2%Z;
      Mean := 30%float;
      SumOfSquaredDeviation := 15%float;
      Range := None;
      BucketOptions := Some {| Options :=
        Some (Distribution_BucketOptions_ExplicitBuckets
                (Some {| Bounds := [10%float; 50%float; 70%float] |})) |};
      BucketCounts := [0; 1; 1; 0]%Z
    |})) |}
  |}).

(** *** [createHistogramDescriptor] *)
Definition createHistogramDescriptor : M (option MetricDescriptor * error) :=
  let* (desc, err) := client_CreateMetricDescriptor {|
    cmd_Name := "projects/" ++ projectID flags;
    cmd_MetricDescriptor := Some {|
      md_Name := "projects/" ++ projectID flags ++ "/metricDescriptors/" ++ metricType;
      md_Type := metricType;
      md_Labels := [ {| ld_Key := "key_a";
                        ld_ValueType := LabelDescriptor_STRING;
                        ld_Description := "some key a" |} ];
      md_MetricKind := MetricDescriptor_GAUGE;
      md_ValueType := MetricDescriptor_DISTRIBUTION;
      md_Unit := "ms";
      md_Description := "test histogram";
      md_DisplayName := "Test Histogram Display name";
      md_Metadata := None;
      md_MonitoredResourceTypes := ["generic_task"; "k8s_container"]
    |}
  |} in
  match err with
  | Some e => ret (None, Some (Errorf_w "create metric descriptor: " e))
  | None =>
      let* txt := mustMarshalProtoText (MsgMetricDescriptor desc) in
      fmt_Printf (LF ++ Color_Add Blue "[CREATED METRIC DESCRIPTOR]" ++ LF ++ txt ++ LF) ;;
      ret (desc, err)
  end.

(** *** [getMetricDescriptor]

    [desc.Name] is a field read through the pointer: on a nil [desc] the
    Go runtime panics. *)
Definition getMetricDescriptor (desc : option MetricDescriptor)
  : M (option MetricDescriptor * error) :=
  match desc with
  | None => panic "runtime error: invalid memory address or nil pointer dereference"
  | Some d =>
      let* (desc, err) := client_GetMetricDescriptor {| gmd_Name := md_Name d |} in
      let* txt := mustMarshalProtoText (MsgMetricDescriptor desc) in
      fmt_Printf (LF ++ Color_Add Blue "[GOT METRIC DESCRIPTOR]" ++ LF ++ txt ++ LF) ;;
      ret (desc, err)
  end.

(** *** [createHistogramTimeSeries] *)
Definition createHistogramTimeSeries : M (option TimeSeries * error) :=
  let* point := newHistogramPoint in
  let series := {|
    ts_Metric := Some {| m_Type := metricType;
                         m_Labels := {[ "key_a" := "value-a" ]} |};
    ts_Resource := None;
    ts_MetricKind := MetricDescriptor_GAUGE;
    ts_ValueType := MetricDescriptor_DISTRIBUTION;
    ts_Points := [point];
    ts_Unit := "ms"
  |} in
  let with_resource (r : option MonitoredResource) := {|
    ts_Metric := ts_Metric series;
    ts_Resource := r;
    ts_MetricKind := ts_MetricKind series;
    ts_ValueType := ts_ValueType series;
    ts_Points := ts_Points series;
    ts_Unit := ts_Unit series
  |} in
  let submit (series : TimeSeries) : M (option TimeSeries * error) :=
    let* txt := mustMarshalProtoText (MsgTimeSeries (Some series)) in
    fmt_Printf (LF ++ Color_Add Blue "[CREATED TIME SERIES]" ++ LF ++ txt ++ LF) ;;
    let* err := client_CreateTimeSeries {|
      cts_Name := "projects/" ++ projectID flags;
      cts_TimeSeries := [Some series]
    |} in
    match err with
    | Some e => ret (None, Some (Errorf_w "create time series: " e))
    | None => ret (Some series, None)
    end in
  if String.eqb (monitoredResource flags) "generic_task" then
    submit (with_resource (Some {|
      mr_Type := "generic_task";
      mr_Labels := {[ "project_id" := projectID flags;
                      "location" := "us-central1";
                      "namespace" := "test";
                      "job" := "test-job";
                      "task_id" := "test-task" ]}
    |}))
  else if String.eqb (monitoredResource flags) "k8s_container" then
    submit (with_resource (Some {|
      mr_Type := "k8s_container";
      mr_Labels := {[ "project_id" := projectID flags;
                      "location" := "us-central1";
                      "cluster_name" := "test-cluster";
                      "namespace_name" := "test-namespace";
                      "pod_name" := "test-pod";
                      "container_name" := "test-container" ]}
    |}))
  else if String.eqb (monitoredResource flags) "none" then
    submit (with_resource None)
  else
    ret (None, Some (errorString
           ("unknown monitored resource: " ++ monitoredResource flags))).

(** The filter handed to [gcloud logging read]. *)
Definition auditFilter : string :=
  "resource.type=" ++ DQ ++ "audited_resource" ++ DQ ++
  " resource.labels.service=" ++ DQ ++ "monitoring.googleapis.com" ++ DQ ++
  " resource.labels.method=" ++ DQ ++
    "google.monitoring.v3.MetricService.CreateMetricDescriptor" ++ DQ ++
  " protoPayload.request.metricDescriptor.type=" ++ DQ ++ metricType ++ DQ.

(** *** [runMain] *)
Definition runMain : M error :=
  if String.eqb (projectID flags) "" then
    ret (Some (errorString "--project-id is unset"))
  else
  let* err := monitoring_NewMetricClient in
  match err with
  | Some e => ret (Some (Errorf_w "create gcp monitoring client: " e))
  | None =>
  let* (metricDesc, err) := createHistogramDescriptor in
  match err with
  | Some e => ret (Some (Errorf_w "create histogram descriptor: " e))
  | None =>
  let* (_, err) := createHistogramTimeSeries in
  match err with
  | Some e => ret (Some (Errorf_w "create histogram time series: " e))
  | None =>
  fmt_Printf (LF ++ Color_Add Blue "[AUDIT LOGS]" ++
              ": showing CreateMetricDescriptor audit logs; sleeping" ++ LF) ;;
  time_Sleep (5 * Second)%Z ;;
  let* err := cmd_Run ["gcloud"; "logging"; "read"; auditFilter; "--limit=2"] in
  match err with
  | Some e => ret (Some (Errorf_w "read audit logs: " e))
  | None =>
  let* (_, err) := getMetricDescriptor metricDesc in
  match err with
  | Some e => ret (Some (Errorf_w "get metric descriptor: " e))
  | None => ret None
  end end end end end.

(** *** [main] (after [flag.Parse()]) *)
Definition main : M unit :=
  let* err := runMain in
  match err with
  | Some e => slog_Error "run main" "err" e ;; os_Exit 1%Z
  | None => ret tt
  end.

End Run.

(** ** Concrete worlds and command lines *)

(** A backend that accepts everything: registration echoes the requested
    descriptor, the fetch answers with a descriptor of the requested name,
    and nothing fails.  The marshaller prints nothing. *)
Definition fetched_descriptor (name : string) : MetricDescriptor := {|
  md_Name := name;
  md_Type := metricType;
  md_Labels := [];
  md_MetricKind := MetricDescriptor_GAUGE;
  md_ValueType := MetricDescriptor_DISTRIBUTION;
  md_Unit := "ms";
  md_Description := "test histogram";
  md_DisplayName := "Test Histogram Display name";
  md_Metadata := None;
  md_MonitoredResourceTypes := []
|}.

Definition healthy_world : World := {|
  w_Now := {| Seconds := 1700000000; Nanos := 0 |};
  w_Marshal := fun _ => ("", None);
  w_NewMetricClient := None;
  w_CreateMetricDescriptor := fun req => (cmd_MetricDescriptor req, None);
  w_CreateTimeSeries := fun _ => None;
  w_GetMetricDescriptor := fun req => (Some (fetched_descriptor (gmd_Name req)), None);
  w_CmdRun := fun _ => None
|}.

Definition demo_flags (resource : string) : Flags :=
  {| projectID := "demo"; monitoredResource := resource |}.

(** A backend on which the fetch by name fails (the descriptor is gone, or
    the call was cancelled); everything before it succeeds. *)
Definition fetch_fails_world : World := {|
  w_Now := w_Now healthy_world;
  w_Marshal := w_Marshal healthy_world;
  w_NewMetricClient := None;
  w_CreateMetricDescriptor := w_CreateMetricDescriptor healthy_world;
  w_CreateTimeSeries := w_CreateTimeSeries healthy_world;
  w_GetMetricDescriptor := fun _ => (None, Some (errorString "rpc error: code = NotFound"));
  w_CmdRun := w_CmdRun healthy_world
|}.

(** A backend whose answer to the fetch by name reports another value kind
    than the descriptor it returned at registration (the descriptor was
    replaced in between). *)
Definition replaced_descriptor (name : string) : MetricDescriptor := {|
  md_Name := name;
  md_Type := metricType;
  md_Labels := [];
  md_MetricKind := MetricDescriptor_GAUGE;
  md_ValueType := MetricDescriptor_DOUBLE;
  md_Unit := "ms";
  md_Description := "";
  md_DisplayName := "";
  md_Metadata := None;
  md_MonitoredResourceTypes := []
|}.

Definition drifting_world : World := {|
  w_Now := w_Now healthy_world;
  w_Marshal := w_Marshal healthy_world;
  w_NewMetricClient := None;
  w_CreateMetricDescriptor := w_CreateMetricDescriptor healthy_world;
  w_CreateTimeSeries := w_CreateTimeSeries healthy_world;
  w_GetMetricDescriptor := fun req => (Some (replaced_descriptor (gmd_Name req)), None);
  w_CmdRun := w_CmdRun healthy_world
|}.

(** ** Vocabulary of the statements *)

(** The tokens the [switch] of [createHistogramTimeSeries] has a case for. *)
Definition supported (resource : string) : Prop :=
  resource = "generic_task" ∨ resource = "none" ∨ resource = "k8s_container".

(** A command line the program cannot work with: no project identifier, or
    a resource token the [switch] has no case for. *)
Definition configuration_error (fl : Flags) : Prop :=
  projectID fl = "" ∨ ¬ supported (monitoredResource fl).

(** No call of the trace reaches the backend. *)
Definition no_network (tr : Trace) : Prop :=
  Forall (λ ev, is_network ev = false) tr.

(** Nil-safe getters, as the generated protobuf code has them. *)
Definition GetDistributionValue (p : option Point) : option Distribution :=
  match p with
  | Some {| p_Value := Some {| Value := Some (TypedValue_DistributionValue d) |} |} => d
  | _ => None
  end.

Definition GetBounds (d : option Distribution) : list float :=
  match d with
  | Some {| BucketOptions := Some {| Options :=
        Some (Distribution_BucketOptions_ExplicitBuckets (Some e)) |} |} => Bounds e
  | _ => []
  end.

Definition GetBucketCounts (d : option Distribution) : list Z :=
  match d with
  | Some d => BucketCounts d
  | None => []
  end.

Definition GetStartTime (p : option Point) : option Timestamp :=
  match p with
  | Some {| p_Interval := Some iv |} => StartTime iv
  | _ => None
  end.

Definition GetEndTime (p : option Point) : option Timestamp :=
  match p with
  | Some {| p_Interval := Some iv |} => EndTime iv
  | _ => None
  end.

(** The calls of a run that leave the process or make it wait, by kind. *)
Inductive Milestone :=
| MClient | MRegister | MWrite | MSleep | MAudit | MFetch.

Definition milestone (ev : Event) : option Milestone :=
  match ev with
  | EvNewMetricClient => Some MClient
  | EvCreateMetricDescriptor _ => Some MRegister
  | EvCreateTimeSeries _ => Some MWrite
  | EvSleep _ => Some MSleep
  | EvCmdRun _ => Some MAudit
  | EvGetMetricDescriptor _ => Some MFetch
  | _ => None
  end.

Definition milestones (tr : Trace) : list Milestone := omap milestone tr.

Definition is_log (ev : Event) : bool :=
  match ev with
  | EvSlogError _ _ _ => true
  | _ => false
  end.

(** The two write requests of a run name the project they go to; the
    descriptor in a registration request is named under that project by its
    type. *)
Definition addressed_to (project : string) (ev : Event) : Prop :=
  match ev with
  | EvCreateMetricDescriptor req =>
      cmd_Name req = "projects/" ++ project
      ∧ ∃ d, cmd_MetricDescriptor req = Some d
             ∧ md_Name d = cmd_Name req ++ "/metricDescriptors/" ++ md_Type d
  | EvCreateTimeSeries req => cts_Name req = "projects/" ++ project
  | _ => True
  end.

(** The errors [runMain] can return, each with the answer of the world (or
    the flag value) that causes it. *)
Inductive runMain_error (w : World) (fl : Flags) : Err → Prop :=
| err_project_unset :
    projectID fl = "" →
    runMain_error w fl (errorString "--project-id is unset")
| err_client e :
    w_NewMetricClient w = Some e →
    runMain_error w fl (Errorf_w "create gcp monitoring client: " e)
| err_register req d e :
    w_CreateMetricDescriptor w req = (d, Some e) →
    runMain_error w fl
      (Errorf_w "create histogram descriptor: "
         (Errorf_w "create metric descriptor: " e))
| err_unknown_resource :
    ¬ supported (monitoredResource fl) →
    runMain_error w fl
      (Errorf_w "create histogram time series: "
         (errorString ("unknown monitored resource: " ++ monitoredResource fl)))
| err_write req e :
    w_CreateTimeSeries w req = Some e →
    runMain_error w fl
      (Errorf_w "create histogram time series: "
         (Errorf_w "create time series: " e))
| err_audit argv e :
    w_CmdRun w argv = Some e →
    runMain_error w fl (Errorf_w "read audit logs: " e)
| err_fetch req d e :
    w_GetMetricDescriptor w req = (d, Some e) →
    runMain_error w fl (Errorf_w "get metric descriptor: " e).

(** A backend that answers the registration with no descriptor and no
    error. *)
Definition nil_descriptor_world : World := {|
  w_Now := w_Now healthy_world;
  w_Marshal := w_Marshal healthy_world;
  w_NewMetricClient := None;
  w_CreateMetricDescriptor := fun _ => (None, None);
  w_CreateTimeSeries := w_CreateTimeSeries healthy_world;
  w_GetMetricDescriptor := w_GetMetricDescriptor healthy_world;
  w_CmdRun := w_CmdRun healthy_world
|}.

(** A world whose marshaller cannot print a time series. *)
Definition unprintable_series_world : World := {|
  w_Now := w_Now healthy_world;
  w_Marshal := fun m => match m with
                        | MsgTimeSeries _ => ("", Some (errorString "proto: invalid UTF-8"))
                        | MsgMetricDescriptor _ => ("", None)
                        end;
  w_NewMetricClient := None;
  w_CreateMetricDescriptor := w_CreateMetricDescriptor healthy_world;
  w_CreateTimeSeries := w_CreateTimeSeries healthy_world;
  w_GetMetricDescriptor := w_GetMetricDescriptor healthy_world;
  w_CmdRun := w_CmdRun healthy_world
|}.

(** A backend that rejects the written point. *)
Definition write_fails_world : World := {|
  w_Now := w_Now healthy_world;
  w_Marshal := w_Marshal healthy_world;
  w_NewMetricClient := None;
  w_CreateMetricDescriptor := w_CreateMetricDescriptor healthy_world;
  w_CreateTimeSeries := fun _ => Some (errorString "rpc error: code = InvalidArgument");
  w_GetMetricDescriptor := w_GetMetricDescriptor healthy_world;
  w_CmdRun := w_CmdRun healthy_world
|}.

(** ** The run as the specification describes it: a linear pipeline *)

Inductive Step :=
| Validate | RegisterDescriptor | WriteSeries | Sleep | ReadAuditLogs | ReadDescriptor.

Definition pipeline : list Step :=
  [Validate; RegisterDescriptor; WriteSeries; Sleep; ReadAuditLogs; ReadDescriptor].

(** Run the steps in order, once each; the first one that reports an error
    ends the sequence with that error. *)
Fixpoint run_steps (steps : list (M error)) : M error :=
  match steps with
  | [] => ret None
  | s :: rest =>
      bind s (λ err, match err with
                     | Some e => ret (Some e)
                     | None => run_steps rest
                     end)
  end.

(** Then log and leave with status 1, or return. *)
Definition run_pipeline (steps : list (M error)) : M unit :=
  bind (run_steps steps) (λ err,
    match err with
    | Some e => bind (emit (EvSlogError "run main" "err" e)) (λ _, os_Exit 1%Z)
    | None => ret tt
    end).

Section Steps.
Variable w : World.
Variable flags : Flags.

Local Open Scope run_scope.

(** [err] as [runMain] hands it on: wrapped under the step's prefix. *)
Definition wrapped (prefix : string) (err : error) : error :=
  match err with
  | Some e => Some (Errorf_w prefix e)
  | None => None
  end.

(** The descriptor that registration hands to the later fetch. *)
Definition registered : option MetricDescriptor :=
  match snd (createHistogramDescriptor w flags) with
  | Return (desc, _) => desc
  | _ => None
  end.

(** What [runMain] does in each step.  Opening the client belongs to the
    registration step, the first one that needs the backend. *)
Definition step (s : Step) : M error :=
  match s with
  | Validate =>
      if String.eqb (projectID flags) ""
      then ret (Some (errorString "--project-id is unset"))
      else ret None
  | RegisterDescriptor =>
      let* err := monitoring_NewMetricClient w in
      match err with
      | Some e => ret (Some (Errorf_w "create gcp monitoring client: " e))
      | None =>
          let* (_, err) := createHistogramDescriptor w flags in
          ret (wrapped "create histogram descriptor: " err)
      end
  | WriteSeries =>
      let* (_, err) := createHistogramTimeSeries w flags in
      ret (wrapped "create histogram time series: " err)
  | Sleep =>
      fmt_Printf (LF ++ Color_Add Blue "[AUDIT LOGS]" ++
                  ": showing CreateMetricDescriptor audit logs; sleeping" ++ LF) ;;
      time_Sleep (5 * Second)%Z ;;
      ret None
  | ReadAuditLogs =>
      let* err := cmd_Run w ["gcloud"; "logging"; "read"; auditFilter; "--limit=2"] in
      ret (wrapped "read audit logs: " err)
  | ReadDescriptor =>
      let* (_, err) := getMetricDescriptor w registered in
      ret (wrapped "get metric descriptor: " err)
  end.
End Steps.

(** * Theorems *)

(** ** Laws of the monad *)

Lemma bind_ret_l {A B} (a : A) (k : A → M B) : bind (ret a) k = k a.
Proof. unfold bind, ret. destruct (k a) as [t o]. reflexivity. Qed.

Lemma bind_ret_r {A} (m : M A) : bind m ret = m.
Proof.
  destruct m as [t [a|v|c]]; simpl; try reflexivity.
  by rewrite app_nil_r.
Qed.

Lemma bind_assoc {A B C} (m : M A) (k : A → M B) (h : B → M C) :
  bind (bind m k) h = bind m (λ a, bind (k a) h).
Proof.
  destruct m as [t [a|v|c]]; simpl; try reflexivity.
  destruct (k a) as [t2 [b|v|c]]; simpl; try reflexivity.
  destruct (h b) as [t3 o]. by rewrite app_assoc.
Qed.

(** A computation that panics or exits swallows its continuation. *)
Lemma bind_trace_prefix {A B} (m : M A) (k : A → M B) :
  ∃ t, fst (bind m k) = (fst m ++ t)%list.
Proof.
  destruct m as [t [a|v|c]]; simpl.
  - destruct (k a) as [t2 o]. by exists t2.
  - exists []. by rewrite app_nil_r.
  - exists []. by rewrite app_nil_r.
Qed.

(** ** Linear pipelines *)

Section Pipelines.
Implicit Types (steps pre post : list (M error)) (m : M error).

(** All steps succeed: every trace is kept, in order. *)
Lemma run_steps_all_ok steps :
  (∀ m, m ∈ steps → snd m = Return None) →
  run_steps steps = (concat (fst <$> steps), Return None).
Proof.
  induction steps as [|m steps IH]; intros Hok; [reflexivity|].
  assert (Hm : snd m = Return None) by (apply Hok; left).
  destruct m as [t o]; simpl in Hm; subst o.
  cbn [run_steps bind]. rewrite IH; [reflexivity|].
  intros m' Hin. apply Hok. by right.
Qed.

(** The first failing step ends the run: nothing of [post] is run. *)
Lemma run_steps_abort pre m post (e : Err) :
  (∀ m', m' ∈ pre → snd m' = Return None) →
  snd m = Return (Some e) →
  run_steps (pre ++ m :: post)%list
  = ((concat (fst <$> pre) ++ fst m)%list, Return (Some e)).
Proof.
  induction pre as [|m' pre IH]; intros Hok Hm.
  - destruct m as [t o]; simpl in Hm; subst o. simpl.
    by rewrite app_nil_r.
  - assert (Hm' : snd m' = Return None) by (apply Hok; left).
    destruct m' as [t o]; simpl in Hm'; subst o.
    cbn [app run_steps bind]. rewrite IH; [|by intros; apply Hok; right|done].
    simpl. by rewrite app_assoc.
Qed.

(** A run that ends without error has seen every step succeed. *)
Lemma run_steps_ok_inv steps :
  snd (run_steps steps) = Return None →
  ∀ m, m ∈ steps → snd m = Return None.
Proof.
  induction steps as [|m steps IH]; intros Hrun m' Hin.
  - by apply elem_of_nil in Hin.
  - destruct m as [t [[e|]|v|c]]; simpl in Hrun; try discriminate.
    destruct (run_steps steps) as [t2 o2] eqn:Hrest. simpl in *.
    apply elem_of_cons in Hin as [->|Hin]; [reflexivity|].
    by apply IH.
Qed.

(** Only [run_pipeline] itself leaves the process: when no step calls
    [os.Exit], status 0 means that every step succeeded. *)
Lemma run_pipeline_status_0 steps :
  (∀ m c, m ∈ steps → snd m ≠ Exited c) →
  exit_status (snd (run_pipeline steps)) = 0%Z ↔
  ∀ m, m ∈ steps → snd m = Return None.
Proof.
  intros Hne. unfold run_pipeline. split.
  - revert Hne. induction steps as [|m steps IH]; intros Hne Hst m' Hin.
    + by apply elem_of_nil in Hin.
    + assert (Hm : ∀ c, snd m ≠ Exited c) by (intros c; apply Hne; left).
      assert (Hrest : ∀ m0 c, m0 ∈ steps → snd m0 ≠ Exited c)
        by (intros m0 c H0; apply Hne; by right).
      destruct m as [t [[e|]|v|c]]; simpl in Hst; try discriminate.
      * destruct (run_steps steps) as [t2 [[e|]|v|c]] eqn:Hrun;
          simpl in Hst; try discriminate.
        -- apply elem_of_cons in Hin as [->|Hin]; [reflexivity|].
           by apply IH.
        -- apply elem_of_cons in Hin as [->|Hin]; [reflexivity|].
           by apply IH.
      * exfalso. by apply (Hm c).
  - intros Hok. by rewrite (run_steps_all_ok _ Hok).
Qed.
End Pipelines.

(** ** [runMain] step by step *)

Lemma runMain_run_steps w fl : runMain w fl = run_steps (step w fl <$> pipeline).
Proof.
  unfold runMain, pipeline. cbn [fmap list_fmap run_steps step]. unfold registered.
  destruct (String.eqb (projectID fl) ""); [reflexivity|].
  rewrite bind_ret_l.
  unfold monitoring_NewMetricClient, emit. cbn [bind ret app].
  destruct (w_NewMetricClient w) as [e|]; [reflexivity|]. cbn [app].
  destruct (createHistogramDescriptor w fl) as [t1 [[d [e|]]|v|c]];
    cbn [bind ret snd wrapped app]; rewrite ?app_nil_r; try reflexivity.
  destruct (createHistogramTimeSeries w fl) as [t2 [[s [e|]]|v|c]];
    cbn [bind ret snd wrapped app]; rewrite ?app_nil_r; try reflexivity.
  unfold fmt_Printf, time_Sleep, cmd_Run, emit. cbn [bind ret app].
  destruct (w_CmdRun w _) as [e|]; cbn [bind ret snd wrapped app];
    rewrite ?app_nil_r; try reflexivity.
  destruct (getMetricDescriptor w d) as [t3 [[d' [e|]]|v|c]];
    cbn [bind ret snd wrapped app]; rewrite ?app_nil_r; reflexivity.
Qed.

Lemma main_run_pipeline w fl : main w fl = run_pipeline (step w fl <$> pipeline).
Proof.
  unfold main, run_pipeline, slog_Error. by rewrite runMain_run_steps.
Qed.

(** ** The functions never call [os.Exit] themselves *)

Ltac run_calls :=
  cbn [bind ret emit panic os_Exit app fst snd
       timestamppb_Now prototext_Marshal monitoring_NewMetricClient
       client_CreateMetricDescriptor client_CreateTimeSeries
       client_GetMetricDescriptor fmt_Printf time_Sleep cmd_Run slog_Error
       mustMarshalProtoText newHistogramPoint wrapped
       ts_Metric ts_Resource ts_MetricKind ts_ValueType ts_Points ts_Unit].

Ltac ask_world :=
  repeat match goal with
  | |- context [w_Marshal ?w ?m] =>
      destruct (w_Marshal w m) as [? [?|]] eqn:?; run_calls
  | |- context [w_CreateMetricDescriptor ?w ?r] =>
      destruct (w_CreateMetricDescriptor w r) as [? [?|]] eqn:?; run_calls
  | |- context [w_GetMetricDescriptor ?w ?r] =>
      destruct (w_GetMetricDescriptor w r) as [? [?|]] eqn:?; run_calls
  | |- context [w_CreateTimeSeries ?w ?r] =>
      destruct (w_CreateTimeSeries w r) as [?|] eqn:?; run_calls
  | |- context [w_CmdRun ?w ?a] =>
      destruct (w_CmdRun w a) as [?|] eqn:?; run_calls
  | |- context [w_NewMetricClient ?w] =>
      destruct (w_NewMetricClient w) as [?|] eqn:?; run_calls
  end.

(** The three-way [switch] on the resource token, by cases. *)
Ltac switch_resource fl :=
  destruct (String.eqb_spec (monitoredResource fl) "generic_task");
  [|destruct (String.eqb_spec (monitoredResource fl) "k8s_container");
    [|destruct (String.eqb_spec (monitoredResource fl) "none")]].

Lemma createHistogramDescriptor_stays w fl c :
  snd (createHistogramDescriptor w fl) ≠ Exited c.
Proof. unfold createHistogramDescriptor. run_calls. ask_world; discriminate. Qed.

Lemma getMetricDescriptor_stays w desc c :
  snd (getMetricDescriptor w desc) ≠ Exited c.
Proof.
  unfold getMetricDescriptor. destruct desc; run_calls; [|discriminate].
  ask_world; discriminate.
Qed.

Lemma createHistogramTimeSeries_stays w fl c :
  snd (createHistogramTimeSeries w fl) ≠ Exited c.
Proof.
  unfold createHistogramTimeSeries. run_calls.
  switch_resource fl; run_calls; ask_world; discriminate.
Qed.

Lemma step_stays w fl s c : snd (step w fl s) ≠ Exited c.
Proof.
  destruct s; unfold step.
  - destruct (String.eqb _ _); discriminate.
  - run_calls. ask_world; [discriminate|].
    pose proof (createHistogramDescriptor_stays w fl c) as H.
    destruct (createHistogramDescriptor w fl) as [t [[d e]|v|c']];
      run_calls; (discriminate || (simpl in H; congruence)).
  - pose proof (createHistogramTimeSeries_stays w fl c) as H.
    destruct (createHistogramTimeSeries w fl) as [t [[d e]|v|c']];
      run_calls; (discriminate || (simpl in H; congruence)).
  - run_calls. discriminate.
  - run_calls. ask_world; discriminate.
  - pose proof (getMetricDescriptor_stays w (registered w fl) c) as H.
    destruct (getMetricDescriptor w (registered w fl)) as [t [[d e]|v|c']];
      run_calls; (discriminate || (simpl in H; congruence)).
Qed.

(** ** The run is a linear sequence (C7) *)

(** C7.  The run is the linear sequence Validate, RegisterDescriptor,
    WriteSeries, Sleep, ReadAuditLogs, ReadDescriptor, each step run at most
    once and in this order: [main] is [run_pipeline] over the six steps.
    The process leaves with status 0 exactly when every step succeeded; and
    when a step reports an error after all steps before it succeeded, the
    trace of the whole run is the traces of those steps followed by the log
    record of that error (nothing of a later step), and the process leaves
    with status 1. *)
Theorem main_linear_sequence w fl :
  main w fl = run_pipeline (step w fl <$> pipeline)
  ∧ (exit_status (snd (main w fl)) = 0%Z ↔
     ∀ s, s ∈ pipeline → snd (step w fl s) = Return None)
  ∧ (∀ pre s post e,
       pipeline = (pre ++ s :: post)%list →
       (∀ s', s' ∈ pre → snd (step w fl s') = Return None) →
       snd (step w fl s) = Return (Some e) →
       main w fl
       = ((concat (fst <$> (step w fl <$> pre)) ++ fst (step w fl s) ++
           [EvSlogError "run main" "err" e])%list, Exited 1%Z)
         ∧ exit_status (snd (main w fl)) = 1%Z).
Proof.
  split; [apply main_run_pipeline|]. split.
  - rewrite main_run_pipeline, run_pipeline_status_0.
    + split.
      * intros H s Hs. apply H. by apply list_elem_of_fmap_2.
      * intros H m Hm. apply list_elem_of_fmap in Hm as (s & -> & Hs). by apply H.
    + intros m c Hm. apply list_elem_of_fmap in Hm as (s & -> & Hs).
      apply step_stays.
  - intros pre s post e Hpipe Hpre Hs.
    assert (Hmain : main w fl
       = ((concat (fst <$> (step w fl <$> pre)) ++ fst (step w fl s) ++
           [EvSlogError "run main" "err" e])%list, Exited 1%Z)).
    { rewrite main_run_pipeline. unfold run_pipeline.
      rewrite Hpipe, fmap_app, fmap_cons.
      rewrite (run_steps_abort _ _ _ e); [|
        intros m Hm; apply list_elem_of_fmap in Hm as (s' & -> & Hs'); by apply Hpre
        | done].
      simpl. by rewrite <- app_assoc. }
    split; [exact Hmain|]. by rewrite Hmain.
Qed.

(** With the token ["invalid"] on a backend that accepts everything, the
    write step is the one that fails: the run stops there with status 1. *)
Lemma main_linear_sequence_witness :
  pipeline = ([Validate; RegisterDescriptor] ++ WriteSeries ::
              [Sleep; ReadAuditLogs; ReadDescriptor])%list
  ∧ snd (step healthy_world (demo_flags "invalid") WriteSeries)
    = Return (Some (Errorf_w "create histogram time series: "
                      (errorString "unknown monitored resource: invalid")))
  ∧ exit_status (snd (main healthy_world (demo_flags "invalid"))) = 1%Z.
Proof.
  split; [reflexivity|]. split; [reflexivity|].
  destruct (main_linear_sequence healthy_world (demo_flags "invalid"))
    as (_ & _ & Habort).
  refine (proj2 (Habort [Validate; RegisterDescriptor] WriteSeries
                   [Sleep; ReadAuditLogs; ReadDescriptor] _ eq_refl _ eq_refl)).
  intros s' Hin.
  apply elem_of_cons in Hin as [->|Hin]; [reflexivity|].
  apply elem_of_cons in Hin as [->|Hin]; [reflexivity|].
  by apply elem_of_nil in Hin.
Defined.

(** ** The time-series writer *)

(** The [default] case of the [switch]. *)
Lemma createHistogramTimeSeries_unknown w fl :
  ¬ supported (monitoredResource fl) →
  createHistogramTimeSeries w fl
  = ([EvNow], Return (None, Some (errorString
        ("unknown monitored resource: " ++ monitoredResource fl)))).
Proof.
  intros Hsup. unfold createHistogramTimeSeries. run_calls.
  switch_resource fl; run_calls;
    try (exfalso; apply Hsup; unfold supported; tauto).
  reflexivity.
Qed.

Ltac not_in_trace :=
  let Hin := fresh "Hin" in
  intros ? Hin;
  repeat (apply elem_of_cons in Hin as [Hin|Hin]; [discriminate Hin|]);
  by apply elem_of_nil in Hin.

(** C1.  For each of the three supported tokens the writer builds one series
    holding one point; that point has one more bucket count than explicit
    bounds (4 counts for the 3 bounds 10, 50, 70) and its interval starts
    and ends at the same instant, the one clock reading taken. *)
Theorem histogram_point_shape w fl :
  supported (monitoredResource fl) →
  ∃ series point rest,
    fst (createHistogramTimeSeries w fl)
    = EvNow :: EvMarshal (MsgTimeSeries (Some series)) :: rest
    ∧ ts_Points series = [point]
    ∧ length (GetBucketCounts (GetDistributionValue point))
      = (length (GetBounds (GetDistributionValue point)) + 1)%nat
    ∧ GetBounds (GetDistributionValue point) = [10%float; 50%float; 70%float]
    ∧ length (GetBucketCounts (GetDistributionValue point)) = 4%nat
    ∧ GetStartTime point = GetEndTime point
    ∧ GetStartTime point = Some (w_Now w).
Proof.
  intros Hsup. unfold createHistogramTimeSeries. run_calls.
  switch_resource fl; run_calls.
  4: { destruct Hsup as [?|[?|?]]; contradiction. }
  all: ask_world; do 3 eexists; (split; [reflexivity|]); repeat split.
Qed.

Lemma histogram_point_shape_witness :
  supported (monitoredResource (demo_flags "k8s_container"))
  ∧ ∃ series point rest,
      fst (createHistogramTimeSeries healthy_world (demo_flags "k8s_container"))
      = EvNow :: EvMarshal (MsgTimeSeries (Some series)) :: rest
      ∧ ts_Points series = [point]
      ∧ length (GetBucketCounts (GetDistributionValue point))
        = (length (GetBounds (GetDistributionValue point)) + 1)%nat
      ∧ GetBounds (GetDistributionValue point) = [10%float; 50%float; 70%float]
      ∧ length (GetBucketCounts (GetDistributionValue point)) = 4%nat
      ∧ GetStartTime point = GetEndTime point
      ∧ GetStartTime point = Some (w_Now healthy_world).
Proof.
  assert (Hsup : supported (monitoredResource (demo_flags "k8s_container")))
    by (right; right; reflexivity).
  split; [exact Hsup|].
  exact (histogram_point_shape healthy_world (demo_flags "k8s_container") Hsup).
Defined.

(** C2.  For a token outside the enumeration the write step returns the
    error "unknown monitored resource: <token>", which ends with the token
    itself, and all it has done by then is read the clock: no call reaches
    the backend, [CreateTimeSeries] in particular is never issued. *)
Theorem unknown_resource_fails_before_write w fl :
  ¬ supported (monitoredResource fl) →
  let e := errorString ("unknown monitored resource: " ++ monitoredResource fl) in
  createHistogramTimeSeries w fl = ([EvNow], Return (None, Some e))
  ∧ Error e = "unknown monitored resource: " ++ monitoredResource fl
  ∧ no_network (fst (createHistogramTimeSeries w fl))
  ∧ ∀ req, EvCreateTimeSeries req ∉ fst (createHistogramTimeSeries w fl).
Proof.
  intros Hsup e. unfold no_network.
  rewrite (createHistogramTimeSeries_unknown w fl Hsup). cbn [fst].
  split; [reflexivity|]. split; [reflexivity|]. split.
  - repeat constructor.
  - not_in_trace.
Qed.

Lemma unknown_resource_fails_before_write_witness :
  ¬ supported (monitoredResource (demo_flags "invalid"))
  ∧ createHistogramTimeSeries healthy_world (demo_flags "invalid")
    = ([EvNow], Return (None, Some (errorString "unknown monitored resource: invalid"))).
Proof.
  assert (Hsup : ¬ supported (monitoredResource (demo_flags "invalid"))).
  { intros [H|[H|H]]; discriminate H. }
  split; [exact Hsup|].
  exact (proj1 (unknown_resource_fails_before_write
                  healthy_world (demo_flags "invalid") Hsup)).
Defined.

(** C5.  With the token "none" the series the writer builds has no
    monitored resource and exactly one point; every batch handed to
    [CreateTimeSeries] is that one series and nothing else; and when the
    series can be printed the call is made, once, as the last action. *)
Theorem none_resource_single_series w pid :
  let fl := {| projectID := pid; monitoredResource := "none" |} in
  ∃ series point rest,
    fst (createHistogramTimeSeries w fl)
    = EvNow :: EvMarshal (MsgTimeSeries (Some series)) :: rest
    ∧ ts_Resource series = None
    ∧ ts_Points series = [Some point]
    ∧ (∀ req, EvCreateTimeSeries req ∈ fst (createHistogramTimeSeries w fl) →
         cts_TimeSeries req = [Some series])
    ∧ (snd (w_Marshal w (MsgTimeSeries (Some series))) = None →
       ∃ out, rest = [EvPrintf out;
                      EvCreateTimeSeries {| cts_Name := "projects/" ++ pid;
                                            cts_TimeSeries := [Some series] |}]).
Proof.
  intros fl. unfold createHistogramTimeSeries, fl. run_calls.
  cbn [monitoredResource projectID].
  change (String.eqb "none" "generic_task") with false.
  change (String.eqb "none" "k8s_container") with false.
  change (String.eqb "none" "none") with true.
  cbv iota. run_calls.
  destruct (w_Marshal w _) as [txt [e|]] eqn:Hm; run_calls.
  - do 3 eexists. split; [reflexivity|]. repeat split.
    + intros req Hin. rewrite !elem_of_cons in Hin.
      destruct Hin as [?|[?|Hin]]; try discriminate.
      by apply elem_of_nil in Hin.
    + rewrite Hm. discriminate.
  - destruct (w_CreateTimeSeries w _) as [e|]; run_calls.
    all: do 3 eexists; (split; [reflexivity|]); repeat split.
    all: try (intros req Hin; rewrite !elem_of_cons in Hin;
              destruct Hin as [?|[?|[?|[Hin|Hin]]]]; try discriminate;
              [by inversion Hin | by apply elem_of_nil in Hin]).
    all: intros _; eexists; reflexivity.
Qed.

Lemma none_resource_single_series_witness :
  ∃ series point out,
    fst (createHistogramTimeSeries healthy_world (demo_flags "none"))
    = [EvNow; EvMarshal (MsgTimeSeries (Some series)); EvPrintf out;
       EvCreateTimeSeries {| cts_Name := "projects/demo";
                             cts_TimeSeries := [Some series] |}]
    ∧ ts_Resource series = None
    ∧ ts_Points series = [Some point].
Proof.
  destruct (none_resource_single_series healthy_world "demo")
    as (series & point & rest & Htr & Hres & Hpts & _ & Hsent).
  assert (Hm : snd (w_Marshal healthy_world (MsgTimeSeries (Some series))) = None)
    by reflexivity.
  destruct (Hsent Hm) as (out & ->).
  exists series, point, out. split; [exact Htr|]. split; [exact Hres|exact Hpts].
Defined.

(** C9.  For each supported token the series the writer builds agrees with
    the descriptor the registrar asks for: same metric type (the constant),
    same metric kind (gauge), same value type (distribution), same unit
    ("ms"), and the keys of its metric labels are exactly the keys of the
    descriptor's label schema, the single key "key_a". *)
Theorem series_matches_descriptor w fl :
  supported (monitoredResource fl) →
  ∃ series metric req desc rest rest',
    fst (createHistogramTimeSeries w fl)
    = EvNow :: EvMarshal (MsgTimeSeries (Some series)) :: rest
    ∧ fst (createHistogramDescriptor w fl) = EvCreateMetricDescriptor req :: rest'
    ∧ cmd_MetricDescriptor req = Some desc
    ∧ ts_Metric series = Some metric
    ∧ m_Type metric = md_Type desc ∧ m_Type metric = metricType
    ∧ ts_MetricKind series = md_MetricKind desc
    ∧ ts_MetricKind series = MetricDescriptor_GAUGE
    ∧ ts_ValueType series = md_ValueType desc
    ∧ ts_ValueType series = MetricDescriptor_DISTRIBUTION
    ∧ ts_Unit series = md_Unit desc ∧ ts_Unit series = "ms"
    ∧ dom (m_Labels metric) = list_to_set (ld_Key <$> md_Labels desc)
    ∧ dom (m_Labels metric) = ({[ "key_a" ]} : gset string).
Proof.
  intros Hsup.
  assert (Hdesc : ∃ req rest',
    fst (createHistogramDescriptor w fl) = EvCreateMetricDescriptor req :: rest'
    ∧ cmd_MetricDescriptor req = Some {|
        md_Name := "projects/" ++ projectID fl ++ "/metricDescriptors/" ++ metricType;
        md_Type := metricType;
        md_Labels := [ {| ld_Key := "key_a";
                          ld_ValueType := LabelDescriptor_STRING;
                          ld_Description := "some key a" |} ];
        md_MetricKind := MetricDescriptor_GAUGE;
        md_ValueType := MetricDescriptor_DISTRIBUTION;
        md_Unit := "ms";
        md_Description := "test histogram";
        md_DisplayName := "Test Histogram Display name";
        md_Metadata := None;
        md_MonitoredResourceTypes := ["generic_task"; "k8s_container"] |}).
  { unfold createHistogramDescriptor. run_calls.
    ask_world; do 2 eexists; split; reflexivity. }
  destruct Hdesc as (req & rest' & Hreq & Hd).
  unfold createHistogramTimeSeries. run_calls.
  switch_resource fl; run_calls.
  4: { destruct Hsup as [?|[?|?]]; contradiction. }
  all: ask_world; do 2 eexists; exists req; do 3 eexists;
    (split; [reflexivity|]); (split; [exact Hreq|]); (split; [exact Hd|]);
    (split; [reflexivity|]); cbn [m_Type m_Labels md_Type md_MetricKind
      md_ValueType md_Unit md_Labels ts_MetricKind ts_ValueType ts_Unit];
    repeat split; try reflexivity;
    rewrite dom_singleton_L; cbn [fmap list_fmap ld_Key list_to_set];
    by rewrite (right_id_L ∅ (∪)).
Qed.

Lemma series_matches_descriptor_witness :
  supported (monitoredResource flag_defaults)
  ∧ ∃ series metric req desc rest rest',
    fst (createHistogramTimeSeries healthy_world flag_defaults)
    = EvNow :: EvMarshal (MsgTimeSeries (Some series)) :: rest
    ∧ fst (createHistogramDescriptor healthy_world flag_defaults)
      = EvCreateMetricDescriptor req :: rest'
    ∧ cmd_MetricDescriptor req = Some desc
    ∧ ts_Metric series = Some metric
    ∧ m_Type metric = md_Type desc ∧ m_Type metric = metricType
    ∧ ts_MetricKind series = md_MetricKind desc
    ∧ ts_MetricKind series = MetricDescriptor_GAUGE
    ∧ ts_ValueType series = md_ValueType desc
    ∧ ts_ValueType series = MetricDescriptor_DISTRIBUTION
    ∧ ts_Unit series = md_Unit desc ∧ ts_Unit series = "ms"
    ∧ dom (m_Labels metric) = list_to_set (ld_Key <$> md_Labels desc)
    ∧ dom (m_Labels metric) = ({[ "key_a" ]} : gset string).
Proof.
  assert (Hsup : supported (monitoredResource flag_defaults)) by (left; reflexivity).
  split; [exact Hsup|].
  exact (series_matches_descriptor healthy_world flag_defaults Hsup).
Defined.

(** ** Descriptor registration *)

Lemma createHistogramDescriptor_request w fl :
  ∃ rest,
    fst (createHistogramDescriptor w fl)
    = EvCreateMetricDescriptor {|
        cmd_Name := "projects/" ++ projectID fl;
        cmd_MetricDescriptor := Some {|
          md_Name := "projects/" ++ projectID fl ++ "/metricDescriptors/" ++ metricType;
          md_Type := metricType;
          md_Labels := [ {| ld_Key := "key_a";
                            ld_ValueType := LabelDescriptor_STRING;
                            ld_Description := "some key a" |} ];
          md_MetricKind := MetricDescriptor_GAUGE;
          md_ValueType := MetricDescriptor_DISTRIBUTION;
          md_Unit := "ms";
          md_Description := "test histogram";
          md_DisplayName := "Test Histogram Display name";
          md_Metadata := None;
          md_MonitoredResourceTypes := ["generic_task"; "k8s_container"] |} |}
      :: rest.
Proof.
  unfold createHistogramDescriptor. run_calls.
  ask_world; eexists; reflexivity.
Qed.

(** The run up to and including registration, when the flags validate and
    the client opens. *)
Lemma main_reaches_registration w fl :
  projectID fl ≠ "" →
  w_NewMetricClient w = None →
  ∃ rest,
    fst (main w fl)
    = (EvNewMetricClient :: fst (createHistogramDescriptor w fl) ++ rest)%list.
Proof.
  intros Hpid Hcl. unfold main.
  match goal with |- context [fst (bind ?m ?k)] =>
    destruct (bind_trace_prefix m k) as [t' ->] end.
  unfold runMain. apply String.eqb_neq in Hpid. rewrite Hpid.
  unfold monitoring_NewMetricClient. run_calls. rewrite Hcl.
  match goal with |- context [let '(t2, o) := bind ?m ?k in _] =>
    destruct (bind_trace_prefix m k) as [t Ht];
    destruct (bind m k) as [t2 o] end.
  simpl in Ht. subst t2. cbn [fst].
  exists (t ++ t')%list. simpl. by rewrite <- app_assoc.
Qed.

(** C4.  For every project identifier that is not empty, the first thing
    the registrar does is issue the registration request, and the
    descriptor that request carries has the type string
    "custom.googleapis.com/test/histogram" and lists both "generic_task"
    and "k8s_container" as monitored-resource types.  In the whole run this
    request is the second call, right after the client is opened. *)
Theorem registration_request w fl :
  projectID fl ≠ "" →
  ∃ req desc rest,
    fst (createHistogramDescriptor w fl) = EvCreateMetricDescriptor req :: rest
    ∧ cmd_Name req = "projects/" ++ projectID fl
    ∧ cmd_MetricDescriptor req = Some desc
    ∧ md_Type desc = metricType
    ∧ md_Type desc = "custom.googleapis.com/test/histogram"
    ∧ "generic_task" ∈ md_MonitoredResourceTypes desc
    ∧ "k8s_container" ∈ md_MonitoredResourceTypes desc
    ∧ (w_NewMetricClient w = None →
       ∃ rest', fst (main w fl)
                = EvNewMetricClient :: EvCreateMetricDescriptor req :: rest').
Proof.
  intros Hpid.
  destruct (createHistogramDescriptor_request w fl) as (rest & Hreq).
  do 3 eexists. split; [exact Hreq|]. cbn [cmd_Name cmd_MetricDescriptor].
  split; [reflexivity|]. split; [reflexivity|].
  cbn [md_Type md_MonitoredResourceTypes].
  split; [reflexivity|]. split; [reflexivity|]. split; [|split].
  - apply elem_of_cons. by left.
  - apply elem_of_cons. right. apply elem_of_cons. by left.
  - intros Hcl.
    destruct (main_reaches_registration w fl Hpid Hcl) as (rest' & Hmain).
    rewrite Hreq in Hmain. eexists. exact Hmain.
Qed.

Lemma registration_request_witness :
  projectID (demo_flags "generic_task") ≠ ""
  ∧ ∃ req desc rest,
      fst (createHistogramDescriptor healthy_world (demo_flags "generic_task"))
      = EvCreateMetricDescriptor req :: rest
      ∧ cmd_Name req = "projects/demo"
      ∧ cmd_MetricDescriptor req = Some desc
      ∧ md_Type desc = metricType
      ∧ md_Type desc = "custom.googleapis.com/test/histogram"
      ∧ "generic_task" ∈ md_MonitoredResourceTypes desc
      ∧ "k8s_container" ∈ md_MonitoredResourceTypes desc
      ∧ (w_NewMetricClient healthy_world = None →
         ∃ rest', fst (main healthy_world (demo_flags "generic_task"))
                  = EvNewMetricClient :: EvCreateMetricDescriptor req :: rest').
Proof.
  assert (Hpid : projectID (demo_flags "generic_task") ≠ "") by discriminate.
  split; [exact Hpid|].
  exact (registration_request healthy_world (demo_flags "generic_task") Hpid).
Defined.

(** ** Configuration errors *)

(** C6.  With an empty project identifier [runMain] returns the error
    "--project-id is unset" without having done anything; all the process
    then does is log that error and leave with status 1.  No client is
    opened and no RPC is made. *)
Theorem empty_project_id_fails_first w fl :
  projectID fl = "" →
  runMain w fl = ([], Return (Some (errorString "--project-id is unset")))
  ∧ main w fl
    = ([EvSlogError "run main" "err" (errorString "--project-id is unset")],
       Exited 1%Z)
  ∧ exit_status (snd (main w fl)) = 1%Z
  ∧ no_network (fst (main w fl)).
Proof.
  intros Hpid.
  assert (Hrun : runMain w fl
                 = ([], Return (Some (errorString "--project-id is unset")))).
  { unfold runMain. rewrite Hpid. reflexivity. }
  unfold main, no_network. rewrite Hrun. run_calls.
  repeat split. repeat constructor.
Qed.

Lemma empty_project_id_fails_first_witness :
  projectID flag_defaults = ""
  ∧ main healthy_world flag_defaults
    = ([EvSlogError "run main" "err" (errorString "--project-id is unset")],
       Exited 1%Z).
Proof.
  split; [reflexivity|].
  exact (proj1 (proj2 (empty_project_id_fails_first healthy_world flag_defaults eq_refl))).
Defined.

(** The claim that every configuration error is found before any network
    activity fails for the resource token: with project "demo" and token
    "invalid" the client is opened and the registration RPC is issued, and
    only then does the write step report the unknown token. *)
Lemma invalid_token_found_after_network :
  configuration_error (demo_flags "invalid")
  ∧ ¬ no_network (fst (main healthy_world (demo_flags "invalid")))
  ∧ (∃ req, fst (main healthy_world (demo_flags "invalid")) !! 1%nat
            = Some (EvCreateMetricDescriptor req))
  ∧ snd (runMain healthy_world (demo_flags "invalid"))
    = Return (Some (Errorf_w "create histogram time series: "
                      (errorString "unknown monitored resource: invalid"))).
Proof.
  split.
  { right. intros [H|[H|H]]; discriminate H. }
  split.
  { unfold no_network. intros H. apply Forall_cons in H as [H _]. discriminate H. }
  split; [eexists; reflexivity | reflexivity].
Qed.

(** C3, as the code has it.  An empty project identifier is found before
    any network activity.  An unknown resource token is found in the write
    step: the run never issues [CreateTimeSeries] (nor the later fetch), but
    when the project identifier is set and registration succeeds, the client
    has been opened and the registration RPC issued before the token is
    rejected. *)
Theorem configuration_errors_detection w fl :
  (projectID fl = "" → no_network (fst (main w fl)))
  ∧ (¬ supported (monitoredResource fl) →
     (∀ req, EvCreateTimeSeries req ∉ fst (main w fl))
     ∧ (∀ req, EvGetMetricDescriptor req ∉ fst (main w fl)))
  ∧ (¬ supported (monitoredResource fl) →
     projectID fl ≠ "" →
     snd (step w fl RegisterDescriptor) = Return None →
     ∃ req rest e,
       main w fl
       = ((EvNewMetricClient :: EvCreateMetricDescriptor req :: rest ++
           [EvNow; EvSlogError "run main" "err" e])%list, Exited 1%Z)
       ∧ Error e = "create histogram time series: unknown monitored resource: "
                   ++ monitoredResource fl
       ∧ Unwrap e = Some (errorString ("unknown monitored resource: "
                                       ++ monitoredResource fl))).
Proof.
  split; [|split].
  - intros Hpid. unfold main, runMain, no_network. rewrite Hpid. run_calls.
    repeat constructor.
  - intros Hsup. unfold main, runMain.
    rewrite (createHistogramTimeSeries_unknown w fl Hsup).
    unfold createHistogramDescriptor.
    destruct (String.eqb (projectID fl) ""); run_calls.
    + split; not_in_trace.
    + ask_world; split; not_in_trace.
  - intros Hsup Hpid Hreg. unfold main, runMain.
    rewrite (createHistogramTimeSeries_unknown w fl Hsup).
    apply String.eqb_neq in Hpid. rewrite Hpid.
    cbn [step] in Hreg. revert Hreg.
    destruct (createHistogramDescriptor_request w fl) as (rest' & Hreq).
    unfold monitoring_NewMetricClient. run_calls.
    destruct (w_NewMetricClient w) as [e|]; run_calls; [discriminate|].
    destruct (createHistogramDescriptor w fl) as [t1 [[d [e|]]|v|c]];
      run_calls; try discriminate.
    intros _. cbn [fst] in Hreq. subst t1.
    do 3 eexists. split; [|split].
    + cbn [app]. rewrite <- app_assoc. reflexivity.
    + reflexivity.
    + reflexivity.
Qed.

Lemma configuration_errors_detection_witness :
  ¬ supported (monitoredResource (demo_flags "invalid"))
  ∧ projectID (demo_flags "invalid") ≠ ""
  ∧ snd (step healthy_world (demo_flags "invalid") RegisterDescriptor) = Return None
  ∧ (∀ req, EvCreateTimeSeries req ∉ fst (main healthy_world (demo_flags "invalid")))
  ∧ ∃ req rest e,
      main healthy_world (demo_flags "invalid")
      = ((EvNewMetricClient :: EvCreateMetricDescriptor req :: rest ++
          [EvNow; EvSlogError "run main" "err" e])%list, Exited 1%Z)
      ∧ Error e = "create histogram time series: unknown monitored resource: invalid"
      ∧ Unwrap e = Some (errorString "unknown monitored resource: invalid").
Proof.
  assert (Hsup : ¬ supported (monitoredResource (demo_flags "invalid"))).
  { intros [H|[H|H]]; discriminate H. }
  assert (Hpid : projectID (demo_flags "invalid") ≠ "") by discriminate.
  destruct (configuration_errors_detection healthy_world (demo_flags "invalid"))
    as (_ & Hwrite & Hlate).
  split; [exact Hsup|]. split; [exact Hpid|]. split; [reflexivity|].
  split; [exact (proj1 (Hwrite Hsup))|].
  exact (Hlate Hsup Hpid eq_refl).
Defined.

(** ** Registration and the later fetch *)

(** What [createHistogramDescriptor] returns without error is the backend's
    answer to its one request. *)
Lemma createHistogramDescriptor_returns w fl t1 d1 :
  createHistogramDescriptor w fl = (t1, Return (d1, None)) →
  ∃ req, EvCreateMetricDescriptor req ∈ t1
         ∧ w_CreateMetricDescriptor w req = (d1, None).
Proof.
  unfold createHistogramDescriptor. run_calls.
  destruct (w_CreateMetricDescriptor w _) as [d [e|]] eqn:Hrpc; run_calls;
    [discriminate|].
  destruct (w_Marshal w _) as [txt [e|]]; run_calls; [discriminate|].
  intros [= <- <-]. eexists. split; [|exact Hrpc]. apply elem_of_cons. by left.
Qed.

(** What [getMetricDescriptor] returns is the backend's answer to the fetch
    by the name of the descriptor it was given. *)
Lemma getMetricDescriptor_returns w d1 t2 d2 err :
  getMetricDescriptor w (Some d1) = (t2, Return (d2, err)) →
  EvGetMetricDescriptor {| gmd_Name := md_Name d1 |} ∈ t2
  ∧ w_GetMetricDescriptor w {| gmd_Name := md_Name d1 |} = (d2, err).
Proof.
  unfold getMetricDescriptor. run_calls.
  destruct (w_GetMetricDescriptor w _) as [d e] eqn:Hrpc; run_calls.
  destruct (w_Marshal w _) as [txt [e'|]]; run_calls; [discriminate|].
  intros [= <- <- <-]. split; [|reflexivity]. apply elem_of_cons. by left.
Qed.

(** The round trip is not something the program establishes: on a backend
    whose descriptor was replaced between registration and fetch, the whole
    run succeeds, and the registered descriptor is distribution-valued while
    the fetched one is double-valued. *)
Lemma fetched_value_kind_differs :
  let fl := demo_flags "none" in
  ∃ t1 t2 d1 d2,
    createHistogramDescriptor drifting_world fl = (t1, Return (Some d1, None))
    ∧ getMetricDescriptor drifting_world (Some d1) = (t2, Return (Some d2, None))
    ∧ snd (main drifting_world fl) = Return tt
    ∧ md_ValueType d1 = MetricDescriptor_DISTRIBUTION
    ∧ md_ValueType d2 = MetricDescriptor_DOUBLE
    ∧ ¬ (md_Type d2 = md_Type d1 ∧ md_ValueType d2 = md_ValueType d1).
Proof.
  do 4 eexists. split; [reflexivity|]. split; [reflexivity|].
  split; [reflexivity|]. split; [reflexivity|]. split; [reflexivity|].
  intros [_ H]. discriminate H.
Qed.

(** C8, as the code has it.  When registration returns a descriptor [d1]
    and the fetch started from [d1] returns a descriptor [d2], then [d1] is
    the backend's answer to the registration request, the fetch asked for
    the name of [d1], and [d2] is the backend's answer to that; so the two
    report the same type string and value kind whenever the backend answers
    a fetch of that name with the type and kind of [d1]. *)
Theorem fetch_follows_registration w fl t1 t2 d1 d2 :
  createHistogramDescriptor w fl = (t1, Return (Some d1, None)) →
  getMetricDescriptor w (Some d1) = (t2, Return (Some d2, None)) →
  (∃ req, EvCreateMetricDescriptor req ∈ t1
          ∧ w_CreateMetricDescriptor w req = (Some d1, None))
  ∧ EvGetMetricDescriptor {| gmd_Name := md_Name d1 |} ∈ t2
  ∧ w_GetMetricDescriptor w {| gmd_Name := md_Name d1 |} = (Some d2, None)
  ∧ ((∀ d, w_GetMetricDescriptor w {| gmd_Name := md_Name d1 |} = (Some d, None) →
           md_Type d = md_Type d1 ∧ md_ValueType d = md_ValueType d1) →
     md_Type d2 = md_Type d1 ∧ md_ValueType d2 = md_ValueType d1).
Proof.
  intros Hreg Hget.
  apply createHistogramDescriptor_returns in Hreg.
  apply getMetricDescriptor_returns in Hget as [Hin Hrpc].
  split; [exact Hreg|]. split; [exact Hin|]. split; [exact Hrpc|].
  intros Hbackend. by apply Hbackend.
Qed.

Lemma fetch_follows_registration_witness :
  let fl := demo_flags "none" in
  ∃ t1 t2 d1 d2,
    createHistogramDescriptor healthy_world fl = (t1, Return (Some d1, None))
    ∧ getMetricDescriptor healthy_world (Some d1) = (t2, Return (Some d2, None))
    ∧ md_Type d2 = md_Type d1 ∧ md_ValueType d2 = md_ValueType d1.
Proof.
  intros fl. do 4 eexists.
  split; [reflexivity|]. split; [reflexivity|].
  refine (proj2 (proj2 (proj2
    (fetch_follows_registration healthy_world fl _ _ _ _ eq_refl eq_refl))) _).
  intros d Hd. injection Hd as <-. split; reflexivity.
Defined.

(** C10.  The fetch step marshals and prints whatever the fetch returned
    before it looks at the error.  Whatever pair of descriptor and error the
    RPC gives back (a nil descriptor with an error included), the step hands
    the descriptor to the marshaller right after the RPC; and when the
    marshaller yields a text, the step prints it and only then returns that
    same pair, error included, to its caller. *)
Theorem fetch_prints_before_error w d res err :
  w_GetMetricDescriptor w {| gmd_Name := md_Name d |} = (res, err) →
  (∃ rest, fst (getMetricDescriptor w (Some d))
           = EvGetMetricDescriptor {| gmd_Name := md_Name d |}
             :: EvMarshal (MsgMetricDescriptor res) :: rest)
  ∧ (∀ txt, w_Marshal w (MsgMetricDescriptor res) = (txt, None) →
       getMetricDescriptor w (Some d)
       = ([EvGetMetricDescriptor {| gmd_Name := md_Name d |};
           EvMarshal (MsgMetricDescriptor res);
           EvPrintf (LF ++ Color_Add Blue "[GOT METRIC DESCRIPTOR]" ++ LF
                     ++ txt ++ LF)],
          Return (res, err))).
Proof.
  intros Hrpc. unfold getMetricDescriptor. run_calls.
  rewrite Hrpc. run_calls. split.
  - destruct (w_Marshal w _) as [txt [e|]]; run_calls; eexists; reflexivity.
  - intros txt Hm. rewrite Hm. reflexivity.
Qed.

(** On a backend where the fetch fails, the nil result is printed (as the
    empty text) and the error comes back afterwards. *)
Lemma fetch_prints_before_error_witness :
  let d := fetched_descriptor "projects/demo/metricDescriptors/x" in
  let e := errorString "rpc error: code = NotFound" in
  w_GetMetricDescriptor fetch_fails_world {| gmd_Name := md_Name d |} = (None, Some e)
  ∧ w_Marshal fetch_fails_world (MsgMetricDescriptor None) = ("", None)
  ∧ getMetricDescriptor fetch_fails_world (Some d)
    = ([EvGetMetricDescriptor {| gmd_Name := md_Name d |};
        EvMarshal (MsgMetricDescriptor None);
        EvPrintf (LF ++ Color_Add Blue "[GOT METRIC DESCRIPTOR]" ++ LF ++ "" ++ LF)],
       Return (None, Some e)).
Proof.
  intros d e. split; [reflexivity|]. split; [reflexivity|].
  exact (proj2 (fetch_prints_before_error fetch_fails_world d None (Some e) eq_refl)
           "" eq_refl).
Defined.

(** * Further properties of the run *)

(** Every way through [main]: the flags, the answers of the world and the
    descriptor handed to the fetch, by cases. *)
Ltac run_main fl :=
  try unfold main;
  unfold runMain, createHistogramDescriptor, createHistogramTimeSeries,
    getMetricDescriptor;
  destruct (String.eqb_spec (projectID fl) ""); run_calls;
  [|switch_resource fl; run_calls];
  ask_world;
  repeat match goal with
  | |- context [match ?d with Some _ => _ | None => _ end] =>
      is_var d; destruct d; run_calls; ask_world
  end.

Ltac unsupported :=
  let H := fresh in intros [H|[H|H]]; contradiction.

(** X1.  Whatever the world answers, the calls of a run that reach the
    backend, sleep or start the subprocess form an initial part of the
    sequence: open the client, register, write, sleep, read the audit logs,
    fetch.  So none of them is made twice and none out of order. *)
Theorem milestones_in_order w fl :
  milestones (fst (main w fl))
  `prefix_of` [MClient; MRegister; MWrite; MSleep; MAudit; MFetch].
Proof.
  run_main fl; cbn [milestones omap milestone fst]; eexists; reflexivity.
Qed.

(** X2.  Every error [runMain] returns is one of seven: the unset project
    identifier, the unknown resource token, or an error answered by the
    world (client, registration, write, subprocess, fetch) wrapped under the
    prefix of the step, twice for the two RPCs that wrap their own error. *)
Theorem runMain_errors_classified w fl e :
  snd (runMain w fl) = Return (Some e) → runMain_error w fl e.
Proof.
  run_main fl; cbn [snd]; intros [= <-];
    first [ by apply err_project_unset
          | by eapply err_client
          | by eapply err_register
          | by eapply err_write
          | by eapply err_audit
          | by eapply err_fetch
          | apply err_unknown_resource; unsupported ].
Qed.

Lemma runMain_errors_classified_witness :
  snd (runMain write_fails_world (demo_flags "none"))
  = Return (Some (Errorf_w "create histogram time series: "
              (Errorf_w "create time series: "
                 (errorString "rpc error: code = InvalidArgument"))))
  ∧ runMain_error write_fails_world (demo_flags "none")
      (Errorf_w "create histogram time series: "
         (Errorf_w "create time series: "
            (errorString "rpc error: code = InvalidArgument"))).
Proof.
  split; [reflexivity|].
  exact (runMain_errors_classified write_fails_world (demo_flags "none") _ eq_refl).
Defined.

(** X3.  The process ends with status 0, 1 or 2.  It logs exactly one
    record when the status is 1 and none otherwise; and when [runMain]
    returns an error, that error is what the record carries, and the record
    is the last thing the process does before it leaves with status 1. *)
Theorem error_logged_iff_status_1 w fl :
  (exit_status (snd (main w fl)) = 0%Z
   ∨ exit_status (snd (main w fl)) = 1%Z
   ∨ exit_status (snd (main w fl)) = 2%Z)
  ∧ length (List.filter is_log (fst (main w fl)))
    = (if Z.eqb (exit_status (snd (main w fl))) 1 then 1%nat else 0%nat)
  ∧ (∀ e, snd (runMain w fl) = Return (Some e) →
          last (fst (main w fl)) = Some (EvSlogError "run main" "err" e)
          ∧ snd (main w fl) = Exited 1%Z).
Proof.
  assert (Hlast : ∀ e, snd (runMain w fl) = Return (Some e) →
            last (fst (main w fl)) = Some (EvSlogError "run main" "err" e)
            ∧ snd (main w fl) = Exited 1%Z).
  { intros e. unfold main.
    destruct (runMain w fl) as [t [[e'|]|v|c]]; cbn [snd]; intros [= <-].
    run_calls. split; [|reflexivity]. by rewrite last_snoc. }
  split; [|split; [|exact Hlast]].
  - run_main fl; cbn [snd exit_status]; tauto.
  - run_main fl; reflexivity.
Qed.

Lemma error_logged_iff_status_1_witness :
  snd (runMain healthy_world (demo_flags "invalid"))
  = Return (Some (Errorf_w "create histogram time series: "
              (errorString "unknown monitored resource: invalid")))
  ∧ last (fst (main healthy_world (demo_flags "invalid")))
    = Some (EvSlogError "run main" "err"
              (Errorf_w "create histogram time series: "
                 (errorString "unknown monitored resource: invalid")))
  ∧ snd (main healthy_world (demo_flags "invalid")) = Exited 1%Z.
Proof.
  split; [reflexivity|].
  exact (proj2 (proj2 (error_logged_iff_status_1 healthy_world (demo_flags "invalid")))
           _ eq_refl).
Defined.

(** ** More on the time-series writer *)

(** X4.  Whenever the writer issues [CreateTimeSeries], for whatever flags
    and world, it has just printed the marshalled text of the very series
    the request carries, the request is addressed to the project of the
    flags and holds that one series, and what the writer returns is decided
    by the answer alone: the series that was sent when the backend accepts
    it, no series and the wrapped error when it does not. *)
Theorem series_printed_then_sent w fl req :
  EvCreateTimeSeries req ∈ fst (createHistogramTimeSeries w fl) →
  ∃ series txt,
    w_Marshal w (MsgTimeSeries (Some series)) = (txt, None)
    ∧ fst (createHistogramTimeSeries w fl)
      = [EvNow; EvMarshal (MsgTimeSeries (Some series));
         EvPrintf (LF ++ Color_Add Blue "[CREATED TIME SERIES]" ++ LF ++ txt ++ LF);
         EvCreateTimeSeries req]
    ∧ req = {| cts_Name := "projects/" ++ projectID fl;
               cts_TimeSeries := [Some series] |}
    ∧ snd (createHistogramTimeSeries w fl)
      = match w_CreateTimeSeries w req with
        | Some e => Return (None, Some (Errorf_w "create time series: " e))
        | None => Return (Some series, None)
        end.
Proof.
  unfold createHistogramTimeSeries. run_calls.
  switch_resource fl; run_calls.
  4: { cbn [fst]. intros Hin. apply list_elem_of_singleton in Hin. discriminate Hin. }
  all: (destruct (w_Marshal w _) as [txt [?|]] eqn:Hm; run_calls;
     [|destruct (w_CreateTimeSeries w _) as [?|] eqn:Hrpc; run_calls]);
    cbn [fst snd]; intros Hin;
    repeat (apply elem_of_cons in Hin as [Hin|Hin]; [try discriminate Hin|]);
    try (by apply elem_of_nil in Hin).
  all: injection Hin as ->; do 2 eexists;
    (split; [exact Hm|]); (split; [reflexivity|]); (split; [reflexivity|]);
    by rewrite Hrpc.
Qed.

Lemma series_printed_then_sent_witness :
  ∃ req series,
    EvCreateTimeSeries req
      ∈ fst (createHistogramTimeSeries write_fails_world (demo_flags "k8s_container"))
    ∧ req = {| cts_Name := "projects/demo"; cts_TimeSeries := [Some series] |}
    ∧ snd (createHistogramTimeSeries write_fails_world (demo_flags "k8s_container"))
      = Return (None, Some (Errorf_w "create time series: "
                              (errorString "rpc error: code = InvalidArgument"))).
Proof.
  eexists. eexists.
  assert (Hin : ∀ A (x : A) a b c, x ∈ [a; b; c; x]).
  { intros. do 3 (apply elem_of_cons; right). apply elem_of_cons. by left. }
  split; [apply Hin|].
  destruct (series_printed_then_sent write_fails_world (demo_flags "k8s_container")
              _ (Hin _ _ _ _ _)) as (series & txt & _ & _ & Hreq & Hret).
  split; [reflexivity|exact Hret].
Defined.

(** X5.  With the token "generic_task" or "k8s_container" the series carries
    a monitored resource whose type is the token itself, one of the types
    the registrar lists in the descriptor it asks for, and whose labels name
    the project of the flags and the location "us-central1". *)
Theorem resource_matches_token w fl :
  monitoredResource fl = "generic_task" ∨ monitoredResource fl = "k8s_container" →
  ∃ series r req desc rest rest',
    fst (createHistogramTimeSeries w fl)
    = EvNow :: EvMarshal (MsgTimeSeries (Some series)) :: rest
    ∧ ts_Resource series = Some r
    ∧ mr_Type r = monitoredResource fl
    ∧ mr_Labels r !! "project_id" = Some (projectID fl)
    ∧ mr_Labels r !! "location" = Some "us-central1"
    ∧ fst (createHistogramDescriptor w fl) = EvCreateMetricDescriptor req :: rest'
    ∧ cmd_MetricDescriptor req = Some desc
    ∧ mr_Type r ∈ md_MonitoredResourceTypes desc.
Proof.
  intros Htok.
  destruct (createHistogramDescriptor_request w fl) as (rest' & Hreq).
  unfold createHistogramTimeSeries. run_calls.
  switch_resource fl; run_calls.
  3: { destruct Htok; contradiction. }
  3: { destruct Htok; contradiction. }
  all: ask_world; do 5 eexists; exists rest';
    (split; [reflexivity|]); (split; [reflexivity|]);
    cbn [mr_Type mr_Labels];
    (split; [congruence|]);
    (split; [by simplify_map_eq|]); (split; [by simplify_map_eq|]);
    (split; [exact Hreq|]); (split; [reflexivity|]);
    cbn [md_MonitoredResourceTypes]; rewrite !elem_of_cons; tauto.
Qed.

Lemma resource_matches_token_witness :
  ∃ series r,
    (∃ rest, fst (createHistogramTimeSeries healthy_world (demo_flags "k8s_container"))
             = EvNow :: EvMarshal (MsgTimeSeries (Some series)) :: rest)
    ∧ ts_Resource series = Some r
    ∧ mr_Type r = "k8s_container"
    ∧ mr_Labels r !! "project_id" = Some "demo".
Proof.
  destruct (resource_matches_token healthy_world (demo_flags "k8s_container")
              (or_intror eq_refl))
    as (series & r & req & desc & rest & rest' & Htr & Hres & Hty & Hpid & _).
  exists series, r. split; [by exists rest|]. split; [exact Hres|].
  split; [exact Hty|exact Hpid].
Defined.

(** ** How a run can end *)

(** X6.  A run panics in two ways only.  Either the marshaller refused a
    message: then that attempt is the last thing the run did and the panic
    value is "marshal metric descriptor: " followed by the marshaller's
    error (also when the message is a time series).  Or the backend
    answered the registration with neither descriptor nor error: then the
    run went on through the write and the audit logs, and died of a nil
    dereference before the fetch was issued. *)
Theorem panics_classified w fl v :
  snd (main w fl) = Panic v →
  (∃ m txt e,
     w_Marshal w m = (txt, Some e)
     ∧ last (fst (main w fl)) = Some (EvMarshal m)
     ∧ v = "marshal metric descriptor: " ++ Error e)
  ∨ (∃ req argv,
       w_CreateMetricDescriptor w req = (None, None)
       ∧ EvCreateMetricDescriptor req ∈ fst (main w fl)
       ∧ last (fst (main w fl)) = Some (EvCmdRun argv)
       ∧ v = "runtime error: invalid memory address or nil pointer dereference").
Proof.
  run_main fl; cbn [snd fst]; intros [= <-];
    first [ left; do 3 eexists; split; [eassumption|]; split; reflexivity
          | right; do 2 eexists; split; [eassumption|];
            split; [apply elem_of_cons; right; apply elem_of_cons; by left|];
            split; reflexivity ].
Qed.

Lemma panics_classified_witness :
  snd (main nil_descriptor_world (demo_flags "none"))
  = Panic "runtime error: invalid memory address or nil pointer dereference"
  ∧ exit_status (snd (main nil_descriptor_world (demo_flags "none"))) = 2%Z
  ∧ ((∃ m txt e,
        w_Marshal nil_descriptor_world m = (txt, Some e)
        ∧ last (fst (main nil_descriptor_world (demo_flags "none")))
          = Some (EvMarshal m)
        ∧ "runtime error: invalid memory address or nil pointer dereference"
          = "marshal metric descriptor: " ++ Error e)
     ∨ (∃ req argv,
          w_CreateMetricDescriptor nil_descriptor_world req = (None, None)
          ∧ EvCreateMetricDescriptor req
              ∈ fst (main nil_descriptor_world (demo_flags "none"))
          ∧ last (fst (main nil_descriptor_world (demo_flags "none")))
            = Some (EvCmdRun argv)
          ∧ "runtime error: invalid memory address or nil pointer dereference"
            = "runtime error: invalid memory address or nil pointer dereference")).
Proof.
  split; [reflexivity|]. split; [reflexivity|].
  exact (panics_classified nil_descriptor_world (demo_flags "none") _ eq_refl).
Defined.

(** X7.  The process leaves with status 0 only after the whole sequence:
    the project identifier is set, the token is one of the three, all six
    calls (client, register, write, sleep, audit logs, fetch) were made, and
    [runMain] returned no error. *)
Theorem status_0_means_complete w fl :
  exit_status (snd (main w fl)) = 0%Z →
  projectID fl ≠ ""
  ∧ supported (monitoredResource fl)
  ∧ milestones (fst (main w fl))
    = [MClient; MRegister; MWrite; MSleep; MAudit; MFetch]
  ∧ snd (runMain w fl) = Return None.
Proof.
  run_main fl; cbn [snd fst exit_status]; intros H; try discriminate H;
    (split; [assumption|]); (split; [unfold supported; tauto|]);
    split; reflexivity.
Qed.

Lemma status_0_means_complete_witness :
  exit_status (snd (main healthy_world (demo_flags "generic_task"))) = 0%Z
  ∧ milestones (fst (main healthy_world (demo_flags "generic_task")))
    = [MClient; MRegister; MWrite; MSleep; MAudit; MFetch].
Proof.
  split; [reflexivity|].
  exact (proj1 (proj2 (proj2
    (status_0_means_complete healthy_world (demo_flags "generic_task") eq_refl)))).
Defined.

(** X8.  In every run the registration request and the write request are
    addressed to "projects/<project-id>", the project of the flags, and the
    descriptor asked for is named under that project by its type. *)
Theorem requests_address_the_project w fl :
  Forall (addressed_to (projectID fl)) (fst (main w fl)).
Proof.
  run_main fl; cbn [fst];
    repeat first
      [ apply List.Forall_nil
      | apply List.Forall_cons;
        [ cbn [addressed_to cmd_Name cmd_MetricDescriptor cts_Name];
          first [ exact I
                | reflexivity
                | split; [reflexivity|]; eexists; split; reflexivity ] | ] ].
Qed.

(** X9.  The writer never returns a series together with an error, nor
    neither of them; and when the registrar returns an error it returns no
    descriptor and has printed nothing: the request is all it did, and the
    error is the backend's, wrapped under "create metric descriptor: ". *)
Theorem value_or_error w fl :
  (∀ series err,
     snd (createHistogramTimeSeries w fl) = Return (series, err) →
     (series = None ↔ err ≠ None))
  ∧ (∀ desc e,
       snd (createHistogramDescriptor w fl) = Return (desc, Some e) →
       desc = None
       ∧ ∃ req e',
           fst (createHistogramDescriptor w fl) = [EvCreateMetricDescriptor req]
           ∧ snd (w_CreateMetricDescriptor w req) = Some e'
           ∧ e = Errorf_w "create metric descriptor: " e').
Proof.
  split.
  - intros series err. unfold createHistogramTimeSeries. run_calls.
    switch_resource fl; run_calls; ask_world; cbn [snd]; intros [= <- <-];
      split; (congruence || (intros ?; congruence)).
  - intros desc e. unfold createHistogramDescriptor. run_calls.
    destruct (w_CreateMetricDescriptor w _) as [d [e'|]] eqn:Hrpc; run_calls.
    + cbn [snd]. intros [= <- <-]. split; [reflexivity|].
      do 2 eexists. split; [reflexivity|]. split; [by rewrite Hrpc|reflexivity].
    + destruct (w_Marshal w _) as [txt [?|]]; run_calls; cbn [snd]; discriminate.
Qed.

Lemma value_or_error_witness :
  snd (createHistogramTimeSeries write_fails_world (demo_flags "none"))
  = Return (None, Some (Errorf_w "create time series: "
                          (errorString "rpc error: code = InvalidArgument")))
  ∧ ((None : option TimeSeries) = None
     ↔ Some (Errorf_w "create time series: "
               (errorString "rpc error: code = InvalidArgument")) ≠ None).
Proof.
  split; [reflexivity|].
  exact (proj1 (value_or_error write_fails_world (demo_flags "none")) _ _ eq_refl).
Defined.

(** X10.  The audit logs are read only after a successful write and the
    pause: whenever a run starts the subprocess, its command line is
    [gcloud logging read <filter> --limit=2], the call just before it is
    the sleep of five seconds, and the write request of the run was
    accepted by the backend. *)
Theorem audit_after_write_and_pause w fl argv :
  EvCmdRun argv ∈ fst (main w fl) →
  argv = ["gcloud"; "logging"; "read"; auditFilter; "--limit=2"]
  ∧ fst (main w fl) !! 9%nat = Some (EvSleep (5 * Second)%Z)
  ∧ fst (main w fl) !! 10%nat = Some (EvCmdRun argv)
  ∧ ∃ req, fst (main w fl) !! 7%nat = Some (EvCreateTimeSeries req)
           ∧ w_CreateTimeSeries w req = None.
Proof.
  run_main fl; cbn [fst]; intros Hin;
    repeat (apply elem_of_cons in Hin as [Hin|Hin]; [try discriminate Hin|]);
    try (by apply elem_of_nil in Hin);
    injection Hin as ->;
    (split; [reflexivity|]); (split; [reflexivity|]); (split; [reflexivity|]);
    eexists; (split; [reflexivity|eassumption]).
Qed.

Lemma audit_after_write_and_pause_witness :
  EvCmdRun ["gcloud"; "logging"; "read"; auditFilter; "--limit=2"]
    ∈ fst (main fetch_fails_world (demo_flags "none"))
  ∧ fst (main fetch_fails_world (demo_flags "none")) !! 9%nat
    = Some (EvSleep (5 * Second)%Z).
Proof.
  assert (Hin : EvCmdRun ["gcloud"; "logging"; "read"; auditFilter; "--limit=2"]
                  ∈ fst (main fetch_fails_world (demo_flags "none"))).
  { do 10 (apply elem_of_cons; right). apply elem_of_cons. by left. }
  split; [exact Hin|].
  exact (proj1 (proj2
    (audit_after_write_and_pause fetch_fails_world (demo_flags "none") _ Hin))).
Defined.

(** ** [Color.Add] *)

Lemma list_ascii_of_string_app s1 s2 :
  list_ascii_of_string (s1 ++ s2)
  = (list_ascii_of_string s1 ++ list_ascii_of_string s2)%list.
Proof. induction s1 as [|a s1 IH]; simpl; [reflexivity|]. by rewrite IH. Qed.

Lemma string_app_inv_tail s1 s2 t : s1 ++ t = s2 ++ t → s1 = s2.
Proof.
  intros H. apply (f_equal list_ascii_of_string) in H.
  rewrite !list_ascii_of_string_app in H. apply app_inv_tail in H.
  apply (f_equal string_of_list_ascii) in H.
  by rewrite !string_of_list_ascii_of_string in H.
Qed.

Lemma named_color (c : Color) :
  (30 ≤ c ≤ 37)%Z →
  c = Black ∨ c = Red ∨ c = Green ∨ c = Yellow
  ∨ c = Blue ∨ c = Magenta ∨ c = Cyan ∨ c = White.
Proof. unfold Black, Red, Green, Yellow, Blue, Magenta, Cyan, White. lia. Qed.

Lemma append_cons a s t : String a s ++ t = String a (s ++ t).
Proof. reflexivity. Qed.

Lemma append_nil t : "" ++ t = t.
Proof. reflexivity. Qed.

(** X11.  For the eight declared colours (30 to 37), [Add] wraps the text in
    exactly nine characters of escape codes and loses nothing: from the
    result both the colour and the text can be read back. *)
Theorem Color_Add_injective c1 c2 s1 s2 :
  (30 ≤ c1 ≤ 37)%Z →
  (30 ≤ c2 ≤ 37)%Z →
  String.length (Color_Add c1 s1) = (String.length s1 + 9)%nat
  ∧ (Color_Add c1 s1 = Color_Add c2 s2 → c1 = c2 ∧ s1 = s2).
Proof.
  intros H1 H2.
  assert (Hlen : ∀ a b, String.length (a ++ b)
                        = (String.length a + String.length b)%nat).
  { intros a b. induction a as [|x a IH]; simpl; [reflexivity|]. by rewrite IH. }
  apply named_color in H1. apply named_color in H2.
  split.
  - destruct H1 as [->|[->|[->|[->|[->|[->|[->| ->]]]]]]];
      unfold Color_Add;
      match goal with |- context [pretty ?z] =>
        let v := eval vm_compute in (pretty z) in change (pretty z) with v end;
      cbn [append ESC String.length]; rewrite !Hlen; simpl; lia.
  - destruct H1 as [->|[->|[->|[->|[->|[->|[->| ->]]]]]]];
      destruct H2 as [->|[->|[->|[->|[->|[->|[->| ->]]]]]]];
      unfold Color_Add;
      repeat match goal with |- context [pretty ?z] =>
        let v := eval vm_compute in (pretty z) in change (pretty z) with v end;
      unfold ESC; rewrite !append_cons, !append_nil;
      intros H; try discriminate H;
      injection H as H; apply string_app_inv_tail in H; by split.
Qed.

Lemma Color_Add_injective_witness :
  (30 ≤ Blue ≤ 37)%Z
  ∧ String.length (Color_Add Blue "[AUDIT LOGS]") = 21%nat.
Proof.
  assert (H : (30 ≤ Blue ≤ 37)%Z) by (unfold Blue; lia).
  split; [exact H|].
  exact (proj1 (Color_Add_injective Blue Blue "[AUDIT LOGS]" "[AUDIT LOGS]" H H)).
Defined.

(** ** What the fetch asks for *)

(** X12.  Whenever a run issues the fetch, the name it asks for is the name
    of the descriptor the backend returned to the registration request of
    that run (the second call of the run), whatever name was asked for
    there. *)
Theorem fetch_uses_registered_name w fl req :
  EvGetMetricDescriptor req ∈ fst (main w fl) →
  ∃ creq d,
    fst (main w fl) !! 1%nat = Some (EvCreateMetricDescriptor creq)
    ∧ w_CreateMetricDescriptor w creq = (Some d, None)
    ∧ gmd_Name req = md_Name d.
Proof.
  run_main fl; cbn [fst]; intros Hin;
    repeat (apply elem_of_cons in Hin as [Hin|Hin]; [try discriminate Hin|]);
    try (by apply elem_of_nil in Hin);
    injection Hin as ->;
    do 2 eexists; (split; [reflexivity|]); (split; [eassumption|reflexivity]).
Qed.

Lemma fetch_uses_registered_name_witness :
  ∃ creq d,
    EvGetMetricDescriptor {| gmd_Name := md_Name d |}
      ∈ fst (main healthy_world (demo_flags "none"))
    ∧ w_CreateMetricDescriptor healthy_world creq = (Some d, None)
    ∧ md_Name d = "projects/demo/metricDescriptors/custom.googleapis.com/test/histogram".
Proof.
  assert (Hin : EvGetMetricDescriptor
                  {| gmd_Name := "projects/demo/metricDescriptors/" ++ metricType |}
                  ∈ fst (main healthy_world (demo_flags "none"))).
  { do 11 (apply elem_of_cons; right). apply elem_of_cons. by left. }
  destruct (fetch_uses_registered_name healthy_world (demo_flags "none") _ Hin)
    as (creq & d & _ & Hrpc & Hname).
  exists creq, d. cbn [gmd_Name] in Hname. rewrite <- Hname.
  split; [exact Hin|]. split; [exact Hrpc|reflexivity].
Defined.
